(** * The SavedModel serialization registry

    A shallow embedding of [tensorflow/python/saved_model/registration.py]:
    the two module globals [_CLASS_REGISTRY] and [_REGISTERED_NAMES], the
    decorator factory [register_serializable] and the two lookups
    [get_registered_name] and [get_registered_class], followed by the
    properties of the registry that are established on them. *)

From stdpp Require Import gmap strings list fin_maps.

Open Scope string_scope.

#[local] Set Warnings "-clear-no-such-hyp".

(** ** Python objects *)

Module Py.

(** A class object.  [cls_uid] is the identity of the class object,
    [cls_name] its [__name__], and [cls_ancestors] the identities of the
    classes that follow it in its method resolution order (all its proper
    base classes). *)
Record PyClass : Type := MkClass {
  cls_uid : N;
  cls_name : string;
  cls_ancestors : list N
}.

#[global] Instance PyClass_eq_dec : EqDecision PyClass.
Proof. solve_decision. Defined.

(** The objects that are handed to the registry as data: the object to be
    classified by [get_registered_name], and the candidate handed to the
    decorator.  [VInstance c oid] is the object with identity [oid] whose
    exact runtime type is the class [c]. *)
Inductive PyVal : Type :=
| VNone
| VBool (b : bool)
| VInt (z : Z)
| VStr (s : string)
| VClass (c : PyClass)
| VInstance (c : PyClass) (oid : N).

#[global] Instance PyVal_eq_dec : EqDecision PyVal.
Proof. solve_decision. Defined.

(** The outcome of evaluating a Python expression: a value, or a raised
    exception. *)
Inductive outcome (E A : Type) : Type :=
| Return (a : A)
| Raise (e : E).

Arguments Return {E A} a.
Arguments Raise {E A} e.

(** Exceptions, the arguments of [str.format] that their messages are
    built from (kept as they are: the message is not rendered), and the
    object passed as [predicate].

    A [Predicate] is classified by what the module does with it:
    [predicate is None], [callable(predicate)], its truth value and the
    outcome of calling it on one argument.  A [def] or [lambda] is a
    [PredCallable] with truth value [true]; an instance of a class that
    defines [__call__] together with [__bool__] or [__len__] may be a
    [PredCallable] with truth value [false].  Predicates are classifiers
    without side effects: calling one does not touch the registry. *)
Inductive PyExc : Type :=
| ValueError (template : string) (args : list FormatArg)
| KeyError (key : string)
| TypeError (msg : string)
| AttributeError (attr : string)
| Exception (msg : string)

with FormatArg : Type :=
| FStr (s : string)
| FVal (v : PyVal)
| FEntry (predicate : Predicate) (cls : PyVal)

with Predicate : Type :=
| PredNone
| PredCallable (truth : bool) (call : PyVal -> outcome PyExc PyVal)
| PredNotCallable (truth : bool).

Abbreviation result := (outcome PyExc).

(** A [def] or [lambda] as a predicate. *)
Definition PyFunction (f : PyVal -> result PyVal) : Predicate :=
  PredCallable true f.

(** Built-in classes. *)
Definition object_cls : PyClass := MkClass 0 "object" [].
Definition type_cls : PyClass := MkClass 1 "type" [0%N].
Definition NoneType_cls : PyClass := MkClass 2 "NoneType" [0%N].
Definition int_cls : PyClass := MkClass 3 "int" [0%N].
Definition bool_cls : PyClass := MkClass 4 "bool" [3%N; 0%N].
Definition str_cls : PyClass := MkClass 5 "str" [0%N].

(** [type(obj)] *)
Definition type_of (obj : PyVal) : PyClass :=
  match obj with
  | VNone => NoneType_cls
  | VBool _ => bool_cls
  | VInt _ => int_cls
  | VStr _ => str_cls
  | VClass _ => type_cls
  | VInstance c _ => c
  end.

(** [issubclass(c, base)] and [isinstance(obj, base)] *)
Definition issubclass (c base : PyClass) : bool :=
  bool_decide (c = base) || bool_decide (cls_uid base ∈ cls_ancestors c).

Definition isinstance (obj : PyVal) (base : PyClass) : bool :=
  issubclass (type_of obj) base.

Definition strict_subclass (c base : PyClass) : Prop :=
  issubclass c base = true ∧ c ≠ base.

(** [bool(v)] for a data object; instances of the classes considered here
    do not override [__bool__] or [__len__]. *)
Definition truthy (v : PyVal) : bool :=
  match v with
  | VNone => false
  | VBool b => b
  | VInt z => negb (Z.eqb z 0)
  | VStr s => negb (String.eqb s "")
  | VClass _ => true
  | VInstance _ _ => true
  end.

(** [predicate is None], [callable(predicate)], [bool(predicate)] and
    [predicate(obj)]. *)
Definition is_none (p : Predicate) : bool :=
  match p with PredNone => true | _ => false end.

Definition callable (p : Predicate) : bool :=
  match p with PredCallable _ _ => true | _ => false end.

Definition pred_truthy (p : Predicate) : bool :=
  match p with
  | PredNone => false
  | PredCallable t _ => t
  | PredNotCallable t => t
  end.

Definition py_call (p : Predicate) (obj : PyVal) : result PyVal :=
  match p with
  | PredCallable _ f => f obj
  | PredNone => Raise (TypeError "'NoneType' object is not callable")
  | PredNotCallable _ => Raise (TypeError "object is not callable")
  end.

(** Modelled from the spec: [tf_inspect.isclass], the type-introspection
    collaborator of the registry, lives outside this module; it answers
    whether the candidate is a class. *)
Definition isclass (arg : PyVal) : bool :=
  match arg with VClass _ => true | _ => false end.

(** [arg.__name__] *)
Definition dunder_name (arg : PyVal) : result string :=
  match arg with
  | VClass c => Return (cls_name c)
  | _ => Raise (AttributeError "__name__")
  end.

End Py.

Export Py.

(** ** Module state and the monad of the module's functions *)

(** An entry of [_CLASS_REGISTRY]: the tuple [(predicate, class)]. *)
Abbreviation Entry := (Predicate * PyVal)%type.

(** The two module globals. *)
Record Registry : Type := MkRegistry {
  _CLASS_REGISTRY : gmap string Entry;
  _REGISTERED_NAMES : list string
}.

(** The state of the module when it has just been imported. *)
Definition initial : Registry := MkRegistry ∅ [].

(** A function of the module takes the globals, returns a value or raises,
    and leaves the globals as they are at that point. *)
Definition M (A : Type) : Type := Registry → result A * Registry.

#[global] Instance M_ret : MRet M := λ A a r, (Return a, r).

#[global] Instance M_bind : MBind M := λ A B k m r,
  match m r with
  | (Return a, r') => k a r'
  | (Raise e, r') => (Raise e, r')
  end.

Definition raise {A} (e : PyExc) : M A := λ r, (Raise e, r).

(** The outcome of an expression that does not touch the globals. *)
Definition pure {A} (x : result A) : M A := λ r, (x, r).

(** [registered_name in _CLASS_REGISTRY] *)
Definition registry_contains (name : string) : M bool :=
  λ r, (Return (bool_decide (is_Some (_CLASS_REGISTRY r !! name))), r).

(** [_CLASS_REGISTRY[name]] *)
Definition registry_getitem (name : string) : M Entry :=
  λ r, match _CLASS_REGISTRY r !! name with
       | Some entry => (Return entry, r)
       | None => (Raise (KeyError name), r)
       end.

(** [_CLASS_REGISTRY[name] = entry] *)
Definition registry_setitem (name : string) (entry : Entry) : M () :=
  λ r, (Return (),
        MkRegistry (<[name := entry]> (_CLASS_REGISTRY r)) (_REGISTERED_NAMES r)).

(** [_REGISTERED_NAMES.append(name)] *)
Definition names_append (name : string) : M () :=
  λ r, (Return (),
        MkRegistry (_CLASS_REGISTRY r) (_REGISTERED_NAMES r ++ [name])).

(** [reversed(_REGISTERED_NAMES)] *)
Definition names_reversed : M (list string) :=
  λ r, (Return (reverse (_REGISTERED_NAMES r)), r).

(** ** The functions of the module *)

(** The body of the [for] loop of [get_registered_name], over the names
    that are still to be visited. *)
Fixpoint for_name_in (obj : PyVal) (names : list string) : M (option string) :=
  match names with
  | [] => mret None
  | name :: rest =>
      entry ← registry_getitem name;
      let '(predicate, cls) := entry in
      if negb (pred_truthy predicate) && bool_decide (VClass (type_of obj) = cls)
      then mret (Some name)
      else
        if pred_truthy predicate
        then
          v ← pure (py_call predicate obj);
          if truthy v then mret (Some name) else for_name_in obj rest
        else for_name_in obj rest
  end.

Definition get_registered_name (obj : PyVal) : M (option string) :=
  names ← names_reversed;
  for_name_in obj names.

Definition get_registered_class (registered_name : string) : M (option PyVal) :=
  λ r, match registry_getitem registered_name r with
       | (Return entry, r') => (Return (Some entry.2), r')
       | (Raise (KeyError _), r') => (Return None, r')
       | (Raise e, r') => (Raise e, r')
       end.

(** Default values of the parameters of [register_serializable]. *)
Definition default_package : string := "Custom".
Definition default_name : option string := None.
Definition default_predicate : Predicate := PredNone.

Definition decorator (package : string) (name : option string)
    (predicate : Predicate) (arg : PyVal) : M PyVal :=
  if negb (isclass arg)
  then raise (ValueError "Registered serializable must be a class: {}" [FVal arg])
  else
    class_name ← match name with
                 | Some n => mret n
                 | None => pure (dunder_name arg)
                 end;
    let registered_name := package ++ "." ++ class_name in
    present ← registry_contains registered_name;
    if (present : bool)
    then
      existing ← registry_getitem registered_name;
      raise (ValueError "{} has already been registered to {}"
               [FStr registered_name; FEntry existing.1 existing.2])
    else
      registry_setitem registered_name (predicate, arg);;
      names_append registered_name;;
      mret arg.

Definition register_serializable (package : string) (name : option string)
    (predicate : Predicate) : M (PyVal → M PyVal) :=
  if negb (is_none predicate) && negb (callable predicate)
  then raise (ValueError
                "The `predicate` passed to registered_serializable must be callable." [])
  else mret (decorator package name predicate).

(** [register_serializable(package, name, predicate)(arg)] *)
Definition register (package : string) (name : option string)
    (predicate : Predicate) (arg : PyVal) : M PyVal :=
  d ← register_serializable package name predicate;
  d arg.

(** ** Sequences of calls *)

(** A call of one of the three functions of the module. *)
Inductive Call : Type :=
| CallRegister (package : string) (name : option string)
    (predicate : Predicate) (arg : PyVal)
| CallGetName (obj : PyVal)
| CallGetClass (registered_name : string).

(** The globals after a call, whether it returned or raised. *)
Definition after (c : Call) (r : Registry) : Registry :=
  match c with
  | CallRegister package name predicate arg =>
      (register package name predicate arg r).2
  | CallGetName obj => (get_registered_name obj r).2
  | CallGetClass registered_name => (get_registered_class registered_name r).2
  end.

Definition run (calls : list Call) (r : Registry) : Registry :=
  foldl (λ r c, after c r) r calls.

(** The name a class is registered under: [package + "." + class_name]. *)
Definition registered_name (package : string) (name : option string)
    (c : PyClass) : string :=
  package ++ "." ++ default (cls_name c) name.

(** The name registered by a call, when the call is a registration that
    returns. *)
Definition registers (c : Call) (r : Registry) : option string :=
  match c with
  | CallRegister package name predicate (VClass cls) =>
      match register package name predicate (VClass cls) r with
      | (Return _, _) => Some (registered_name package name cls)
      | (Raise _, _) => None
      end
  | _ => None
  end.

(** The names registered by a sequence of calls, in the order of the
    calls. *)
Fixpoint registered (calls : list Call) (r : Registry) : list string :=
  match calls with
  | [] => []
  | c :: rest =>
      match registers c r with
      | Some n => n :: registered rest (after c r)
      | None => registered rest (after c r)
      end
  end.

(** The match rule of one entry, as the two [if] statements of the loop
    of [get_registered_name] evaluate it. *)
Definition entry_matches (entry : Entry) (obj : PyVal) : result bool :=
  if pred_truthy entry.1
  then match py_call entry.1 obj with
       | Return v => Return (truthy v)
       | Raise e => Raise e
       end
  else Return (bool_decide (VClass (type_of obj) = entry.2)).

(** Invariant I1: the registration order lists the keys of the mapping,
    each once. *)
Definition I1 (r : Registry) : Prop :=
  NoDup (_REGISTERED_NAMES r) ∧
  dom (_CLASS_REGISTRY r) = list_to_set (_REGISTERED_NAMES r).

(** The names registered after [n]: those that follow it in the
    registration order. *)
Fixpoint names_after (n : string) (names : list string) : list string :=
  match names with
  | [] => []
  | m :: rest => if decide (m = n) then rest else names_after n rest
  end.

(** ** Example classes and registrations *)

Module Example.

Definition A : PyClass := MkClass 10 "A" [0%N].
(** [class B(A)] *)
Definition B : PyClass := MkClass 11 "B" [10%N; 0%N].
(** [class C], unrelated to [A] *)
Definition C : PyClass := MkClass 12 "C" [0%N].

Definition a : PyVal := VInstance A 100.
Definition b : PyVal := VInstance B 101.
Definition c : PyVal := VInstance C 102.

(** [lambda obj: isinstance(obj, A)] *)
Definition is_instance_of_A : Predicate :=
  PyFunction (λ obj, Return (VBool (isinstance obj A))).

(** [lambda obj: 1 if isinstance(obj, A) else 0] *)
Definition count_A : Predicate :=
  PyFunction (λ obj, Return (VInt (if isinstance obj A then 1 else 0))).

(** A predicate that raises on every object. *)
Definition failing : Predicate :=
  PyFunction (λ obj, Raise (Exception "predicate failed")).

(** An instance of a class that defines [__call__] as the [isinstance]
    check above and [__len__] as [0]. *)
Definition empty_callable : Predicate :=
  PredCallable false (λ obj, Return (VBool (isinstance obj A))).

End Example.

(** ** Basic facts *)

Section Facts.

Implicit Types (r : Registry) (obj : PyVal) (p : Predicate).

(** The four ways a registration ends. *)
Lemma register_unfold package name p arg r :
  register package name p arg r =
    if negb (is_none p) && negb (callable p)
    then (Raise (ValueError
            "The `predicate` passed to registered_serializable must be callable." []), r)
    else match arg with
         | VClass c =>
             let n := registered_name package name c in
             match _CLASS_REGISTRY r !! n with
             | Some existing =>
                 (Raise (ValueError "{} has already been registered to {}"
                           [FStr n; FEntry existing.1 existing.2]), r)
             | None =>
                 (Return arg,
                  MkRegistry (<[n := (p, arg)]> (_CLASS_REGISTRY r))
                             (_REGISTERED_NAMES r ++ [n]))
             end
         | _ => (Raise (ValueError "Registered serializable must be a class: {}"
                          [FVal arg]), r)
         end.
Proof.
  unfold register, register_serializable.
  destruct (negb (is_none p) && negb (callable p)); [done|].
  unfold mbind, M_bind, mret, M_ret; simpl.
  destruct arg; try done.
  unfold decorator; simpl.
  unfold registered_name.
  destruct name as [n|]; simpl;
    unfold mbind, M_bind, mret, M_ret, registry_contains, registry_getitem; simpl.
  - destruct (_CLASS_REGISTRY r !! (package ++ "." ++ n)) as [e|] eqn:E; simpl.
    + by rewrite E.
    + done.
  - destruct (_CLASS_REGISTRY r !! (package ++ "." ++ cls_name c)) as [e|] eqn:E; simpl.
    + by rewrite E.
    + done.
Qed.

(** One round of the loop of [get_registered_name]. *)
Lemma for_name_in_cons obj name rest r entry :
  _CLASS_REGISTRY r !! name = Some entry →
  for_name_in obj (name :: rest) r =
    match entry_matches entry obj with
    | Return true => (Return (Some name), r)
    | Return false => for_name_in obj rest r
    | Raise e => (Raise e, r)
    end.
Proof.
  intros E. simpl.
  unfold mbind, M_bind, registry_getitem. rewrite E.
  destruct entry as [p cls]. unfold entry_matches; simpl.
  destruct (pred_truthy p); simpl.
  - unfold pure. destruct (py_call p obj) as [v|e]; [|done].
    by destruct (truthy v).
  - by destruct (bool_decide (VClass (type_of obj) = cls)).
Qed.

Lemma for_name_in_missing obj name rest r :
  _CLASS_REGISTRY r !! name = None →
  for_name_in obj (name :: rest) r = (Raise (KeyError name), r).
Proof.
  intros E. simpl. unfold mbind, M_bind, registry_getitem. by rewrite E.
Qed.

Lemma get_registered_name_unfold obj r :
  get_registered_name obj r = for_name_in obj (reverse (_REGISTERED_NAMES r)) r.
Proof. done. Qed.

(** The loop does not write the globals. *)
Lemma for_name_in_frame obj names r : (for_name_in obj names r).2 = r.
Proof.
  induction names as [|name rest IH]; [done|].
  destruct (_CLASS_REGISTRY r !! name) as [entry|] eqn:E.
  - rewrite (for_name_in_cons _ _ _ _ _ E).
    destruct (entry_matches entry obj) as [[]|]; done.
  - by rewrite for_name_in_missing.
Qed.

Lemma get_registered_class_unfold registered_name r :
  get_registered_class registered_name r =
    (Return (snd <$> _CLASS_REGISTRY r !! registered_name), r).
Proof.
  unfold get_registered_class, registry_getitem.
  by destruct (_CLASS_REGISTRY r !! registered_name).
Qed.

(** The loop stops at the first name whose entry matches, as long as the
    entries visited before it evaluate to no match. *)
Lemma for_name_in_first obj r before name entry rest :
  (∀ m, m ∈ before →
     ∃ e, _CLASS_REGISTRY r !! m = Some e ∧ entry_matches e obj = Return false) →
  _CLASS_REGISTRY r !! name = Some entry →
  entry_matches entry obj = Return true →
  for_name_in obj (before ++ name :: rest)%list r = (Return (Some name), r).
Proof.
  intros Hb E Hm. induction before as [|m before IH]; simpl app.
  - by rewrite (for_name_in_cons _ _ _ _ _ E), Hm.
  - destruct (Hb m) as (e & Em & Hno); [left|].
    rewrite (for_name_in_cons _ _ _ _ _ Em), Hno.
    apply IH. intros m' Hin. apply Hb. by right.
Qed.

(** When every entry visited evaluates to no match, the loop ends and
    [None] is returned. *)
Lemma for_name_in_none obj r names :
  (∀ m, m ∈ names →
     ∃ e, _CLASS_REGISTRY r !! m = Some e ∧ entry_matches e obj = Return false) →
  for_name_in obj names r = (Return None, r).
Proof.
  intros Hb. induction names as [|m names IH]; [done|].
  destruct (Hb m) as (e & Em & Hno); [left|].
  rewrite (for_name_in_cons _ _ _ _ _ Em), Hno.
  apply IH. intros m' Hin. apply Hb. by right.
Qed.

(** The loop raises at a name whose entry raises, when the names visited
    before it evaluate to no match. *)
Lemma for_name_in_first_raise obj r before name entry rest e :
  (∀ m, m ∈ before →
     ∃ e', _CLASS_REGISTRY r !! m = Some e' ∧ entry_matches e' obj = Return false) →
  _CLASS_REGISTRY r !! name = Some entry →
  entry_matches entry obj = Raise e →
  for_name_in obj (before ++ name :: rest)%list r = (Raise e, r).
Proof.
  intros Hb E Hm. induction before as [|m before IH]; simpl app.
  - by rewrite (for_name_in_cons _ _ _ _ _ E), Hm.
  - destruct (Hb m) as (e' & Em & Hno); [left|].
    rewrite (for_name_in_cons _ _ _ _ _ Em), Hno.
    apply IH. intros m' Hin. apply Hb. by right.
Qed.

(** In front of its first occurrence, the names registered after [n] are
    the ones that follow it. *)
Lemma names_after_app n (before rest : list string) :
  n ∉ before → names_after n (before ++ n :: rest)%list = rest.
Proof.
  intros Hn. induction before as [|x before IH]; simpl.
  - by rewrite decide_True.
  - rewrite decide_False by (intros ->; apply Hn; left).
    apply IH. intros Hin. apply Hn. by right.
Qed.

(** *** What a call does to the globals *)

Lemma after_get_name obj r : after (CallGetName obj) r = r.
Proof. apply for_name_in_frame. Qed.

Lemma after_get_class n r : after (CallGetClass n) r = r.
Proof. simpl. by rewrite get_registered_class_unfold. Qed.

(** A call either leaves the globals alone and registers nothing, or
    inserts an entry under a name that was not a key and appends the
    name. *)
Lemma after_cases c r :
  (registers c r = None ∧ after c r = r) ∨
  (∃ n entry, registers c r = Some n ∧ _CLASS_REGISTRY r !! n = None ∧
     after c r = MkRegistry (<[n := entry]> (_CLASS_REGISTRY r))
                            (_REGISTERED_NAMES r ++ [n])).
Proof.
  destruct c as [package name p arg|obj|n].
  - unfold registers, after.
    destruct arg; rewrite register_unfold;
      try (left; by destruct (negb (is_none p) && negb (callable p))).
    destruct (negb (is_none p) && negb (callable p)); [by left|].
    simpl. destruct (_CLASS_REGISTRY r !! registered_name package name c) eqn:E.
    + by left.
    + right. by eexists _, _.
  - left. split; [done|]. apply after_get_name.
  - left. split; [done|]. apply after_get_class.
Qed.

(** Entries are never removed or overwritten. *)
Lemma after_lookup_mono c r n entry :
  _CLASS_REGISTRY r !! n = Some entry →
  _CLASS_REGISTRY (after c r) !! n = Some entry.
Proof.
  intros E.
  destruct (after_cases c r) as [[_ ->]|(m & e & _ & Hm & ->)]; [done|].
  simpl. rewrite lookup_insert_ne; [done|]. intros ->. congruence.
Qed.

Lemma after_names c r :
  _REGISTERED_NAMES (after c r) =
    (_REGISTERED_NAMES r ++ option_list (registers c r))%list.
Proof.
  destruct (after_cases c r) as [[-> ->]|(m & e & -> & _ & ->)]; simpl.
  - by rewrite app_nil_r.
  - done.
Qed.

Lemma after_dom c r :
  dom (_CLASS_REGISTRY (after c r)) =
    dom (_CLASS_REGISTRY r) ∪ list_to_set (option_list (registers c r)).
Proof.
  destruct (after_cases c r) as [[-> ->]|(m & e & -> & _ & ->)]; simpl.
  - set_solver.
  - rewrite dom_insert_L. set_solver.
Qed.

Lemma registers_fresh c r n :
  registers c r = Some n → _CLASS_REGISTRY r !! n = None.
Proof.
  destruct (after_cases c r) as [[-> _]|(m & e & -> & Hm & _)]; [done|].
  by intros [= <-].
Qed.

Lemma run_cons c calls r : run (c :: calls) r = run calls (after c r).
Proof. done. Qed.

Lemma run_lookup_mono calls r n entry :
  _CLASS_REGISTRY r !! n = Some entry →
  _CLASS_REGISTRY (run calls r) !! n = Some entry.
Proof.
  revert r. induction calls as [|c calls IH]; intros r E; [done|].
  rewrite run_cons. apply IH. by apply after_lookup_mono.
Qed.

Lemma run_names calls r :
  _REGISTERED_NAMES (run calls r) =
    (_REGISTERED_NAMES r ++ registered calls r)%list.
Proof.
  revert r. induction calls as [|c calls IH]; intros r.
  - simpl. by rewrite app_nil_r.
  - rewrite run_cons, IH, after_names. simpl.
    destruct (registers c r); simpl; by rewrite <- app_assoc.
Qed.

Lemma run_dom calls r :
  dom (_CLASS_REGISTRY (run calls r)) =
    dom (_CLASS_REGISTRY r) ∪ list_to_set (registered calls r).
Proof.
  revert r. induction calls as [|c calls IH]; intros r.
  - simpl. set_solver.
  - rewrite run_cons, IH, after_dom. simpl.
    destruct (registers c r); simpl; set_solver.
Qed.

(** The names registered by a sequence of calls are new and distinct. *)
Lemma registered_fresh calls r n :
  n ∈ registered calls r → _CLASS_REGISTRY r !! n = None.
Proof.
  revert r. induction calls as [|c calls IH]; intros r; simpl.
  - by intros ?%elem_of_nil.
  - assert (n ∈ registered calls (after c r) → _CLASS_REGISTRY r !! n = None)
      as Hrest.
    { intros Hin%IH. destruct (_CLASS_REGISTRY r !! n) eqn:E; [|done].
      apply (after_lookup_mono c) in E. congruence. }
    destruct (registers c r) as [m|] eqn:Hc; [|done].
    intros [->|Hin]%elem_of_cons; [|by apply Hrest].
    by apply (registers_fresh c).
Qed.

Lemma registered_NoDup calls r : NoDup (registered calls r).
Proof.
  revert r. induction calls as [|c calls IH]; intros r; simpl.
  - constructor.
  - destruct (registers c r) as [m|] eqn:Hc; [|apply IH].
    constructor; [|apply IH].
    intros Hin%registered_fresh.
    assert (m ∈ dom (_CLASS_REGISTRY (after c r))) as Hd.
    { rewrite after_dom, Hc. set_solver. }
    apply elem_of_dom in Hd as [? ?]. congruence.
Qed.

Lemma I1_initial : I1 initial.
Proof. split; [constructor|]. simpl. by rewrite dom_empty_L. Qed.

Lemma I1_run calls r : I1 r → I1 (run calls r).
Proof.
  intros [Hnd Hdom]. split.
  - rewrite run_names. apply NoDup_app. split; [done|].
    split; [|apply registered_NoDup].
    intros n Hn Hin%registered_fresh.
    assert (n ∈ dom (_CLASS_REGISTRY r)) as Hd by (rewrite Hdom; set_solver).
    apply elem_of_dom in Hd as [? ?]. congruence.
  - rewrite run_dom, run_names, Hdom, list_to_set_app_L. done.
Qed.

Lemma I1_after c r : I1 r → I1 (after c r).
Proof. apply (I1_run [c]). Qed.

(** Under I1 every name of the registration order has an entry. *)
Lemma I1_lookup r n :
  I1 r → n ∈ _REGISTERED_NAMES r → is_Some (_CLASS_REGISTRY r !! n).
Proof.
  intros [_ Hdom] Hin. apply elem_of_dom. rewrite Hdom. set_solver.
Qed.

(** A registration that returns was handed a class and a predicate that is
    [None] or callable, found its name unused, and stored the entry. *)
Lemma register_returns package name p arg r v r' :
  register package name p arg r = (Return v, r') →
  ∃ c, arg = VClass c ∧ v = arg ∧
    is_none p || callable p = true ∧
    _CLASS_REGISTRY r !! registered_name package name c = None ∧
    r' = MkRegistry
           (<[registered_name package name c := (p, arg)]> (_CLASS_REGISTRY r))
           (_REGISTERED_NAMES r ++ [registered_name package name c]).
Proof.
  rewrite register_unfold.
  destruct (negb (is_none p) && negb (callable p)) eqn:Hp; [done|].
  destruct arg as [| | | |c|]; try done. simpl.
  destruct (_CLASS_REGISTRY r !! registered_name package name c) eqn:E; [done|].
  intros [= <- <-]. exists c. repeat split; try done.
  destruct (is_none p), (callable p); done.
Qed.

(** The first round of the loop looks at the name registered last. *)
Lemma get_registered_name_last obj r names n entry :
  _REGISTERED_NAMES r = (names ++ [n])%list →
  _CLASS_REGISTRY r !! n = Some entry →
  get_registered_name obj r =
    match entry_matches entry obj with
    | Return true => (Return (Some n), r)
    | Return false => for_name_in obj (reverse names) r
    | Raise e => (Raise e, r)
    end.
Proof.
  intros Hn E. rewrite get_registered_name_unfold, Hn, reverse_snoc.
  by apply for_name_in_cons.
Qed.

(** Whatever precedes [n], the names that follow it are among the names
    registered after it. *)
Lemma names_after_incl n (before rest : list string) m :
  m ∈ rest → m ∈ names_after n (before ++ n :: rest)%list.
Proof.
  intros Hin. induction before as [|x before IH]; simpl.
  - by rewrite decide_True.
  - destruct (decide (x = n)); [|done].
    apply elem_of_app. right. by right.
Qed.

(** A registration followed by further calls: the entry stays, and the
    registration order is the old one, the new name, and the names the
    further calls registered. *)
Lemma register_then_run package name p arg r v r1 calls :
  register package name p arg r = (Return v, r1) →
  ∃ c, arg = VClass c ∧
    let n := registered_name package name c in
    _CLASS_REGISTRY r !! n = None ∧
    _CLASS_REGISTRY r1 !! n = Some (p, arg) ∧
    _CLASS_REGISTRY (run calls r1) !! n = Some (p, arg) ∧
    _REGISTERED_NAMES r1 = (_REGISTERED_NAMES r ++ [n])%list ∧
    _REGISTERED_NAMES (run calls r1) =
      (_REGISTERED_NAMES r ++ n :: registered calls r1)%list.
Proof.
  intros (c & -> & _ & _ & Hfresh & ->)%register_returns.
  exists c. split; [done|]. simpl.
  assert (∀ m : gmap string Entry,
            <[registered_name package name c := (p, VClass c)]> m
              !! registered_name package name c = Some (p, VClass c)) as E
    by (intros; apply lookup_insert_eq).
  repeat split; try done.
  - apply run_lookup_mono. apply E.
  - rewrite run_names. simpl. by rewrite <- app_assoc.
Qed.

End Facts.

(** ** Properties of the registry *)

Section Properties.

Implicit Types (r : Registry) (obj : PyVal) (p : Predicate) (c : PyClass).

(** C9.  The two lookups only read: whatever the object or the name, and
    whether they return or raise, [get_registered_name] and
    [get_registered_class] leave [_CLASS_REGISTRY] and [_REGISTERED_NAMES]
    as they found them. *)
Theorem resolve_read_only obj registered_name r :
  (get_registered_name obj r).2 = r ∧
  (get_registered_class registered_name r).2 = r.
Proof.
  split.
  - rewrite get_registered_name_unfold. apply for_name_in_frame.
  - by rewrite get_registered_class_unfold.
Qed.



(** C7.  A predicate that is neither [None] nor callable makes
    [register_serializable] raise [ValueError] before a decorator exists;
    a candidate that is not a class makes the decorator raise
    [ValueError]; either way the registration raises and both globals are
    what they were before the call. *)
Theorem invalid_argument_no_partial_state package name p arg r :
  (is_none p = false → callable p = false →
     register_serializable package name p r =
       (Raise (ValueError
          "The `predicate` passed to registered_serializable must be callable." []), r) ∧
     register package name p arg r =
       (Raise (ValueError
          "The `predicate` passed to registered_serializable must be callable." []), r)) ∧
  (isclass arg = false →
     decorator package name p arg r =
       (Raise (ValueError "Registered serializable must be a class: {}" [FVal arg]), r) ∧
     ∃ template args,
       register package name p arg r = (Raise (ValueError template args), r)).
Proof.
  split.
  - intros Hn Hc. rewrite register_unfold. unfold register_serializable.
    by rewrite Hn, Hc.
  - intros Hcls. split.
    + unfold decorator. by rewrite Hcls.
    + rewrite register_unfold.
      destruct (negb (is_none p) && negb (callable p)); [by eexists _, _|].
      destruct arg; try done; by eexists _, _.
Qed.

Lemma invalid_argument_no_partial_state_witness :
  let r := run [CallRegister "Example" None PredNone (VClass Example.A)] initial in
  (register "Example" (Some "B") (PredNotCallable true) (VClass Example.B) r).2 = r ∧
  (register "Example" (Some "B") PredNone (VInt 3) r).2 = r.
Proof.
  intros r.
  destruct (invalid_argument_no_partial_state "Example" (Some "B")
              (PredNotCallable true) (VClass Example.B) r) as [H1 _].
  destruct (invalid_argument_no_partial_state "Example" (Some "B")
              PredNone (VInt 3) r) as [_ H2].
  split.
  - destruct (H1 eq_refl eq_refl) as [_ ->]. reflexivity.
  - destruct (H2 eq_refl) as [_ (t & a & ->)]. reflexivity.
Defined.

(** C3.  When the name [package + "." + class_name] is already a key of
    [_CLASS_REGISTRY], registering a class under it raises [ValueError]
    whatever the predicate and the class, and neither global changes: the
    entry stored by the first registration and the registration order are
    what they were.  When the predicate is [None] or callable the error is
    the duplicate-registration one, built from the name and the existing
    entry (its predicate and its class). *)
Theorem duplicate_registration_rejected package name p c r existing :
  let n := registered_name package name c in
  _CLASS_REGISTRY r !! n = Some existing →
  let outcome := register package name p (VClass c) r in
  (∃ template args, outcome.1 = Raise (ValueError template args)) ∧
  outcome.2 = r ∧
  _CLASS_REGISTRY outcome.2 !! n = Some existing ∧
  _REGISTERED_NAMES outcome.2 = _REGISTERED_NAMES r ∧
  (is_none p || callable p = true →
     outcome.1 = Raise (ValueError "{} has already been registered to {}"
                          [FStr n; FEntry existing.1 existing.2])).
Proof.
  intros n E outcome. subst outcome. rewrite register_unfold.
  fold n. simpl. rewrite E.
  destruct (is_none p), (callable p); simpl; repeat split; eauto; done.
Qed.

Lemma duplicate_registration_rejected_witness :
  let r := run [CallRegister "Example" None PredNone (VClass Example.A)] initial in
  let outcome := register "Example" (Some "A") Example.is_instance_of_A (VClass Example.B) r in
  outcome.1 = Raise (ValueError "{} has already been registered to {}"
                       [FStr "Example.A"; FEntry PredNone (VClass Example.A)]) ∧
  outcome.2 = r.
Proof.
  intros r outcome.
  destruct (duplicate_registration_rejected "Example" (Some "A")
              Example.is_instance_of_A Example.B r (PredNone, VClass Example.A))
    as (_ & Hr & _ & _ & He); [reflexivity|].
  split; [apply He; reflexivity|apply Hr].
Defined.

(** C4.  After any sequence of calls made on the freshly imported module
    (registrations that return, registrations that raise, and lookups),
    [_REGISTERED_NAMES] is the list of the names of the registrations
    that returned, in the order of the calls; the keys of
    [_CLASS_REGISTRY] are the set of those names; and no name occurs
    twice in [_REGISTERED_NAMES].  Moreover I1 (the registration order
    lists the keys of the mapping, each once) is kept by every call and
    by every sequence of calls, from any state that satisfies it. *)
Theorem registration_order_invariant (calls : list Call) r :
  (let r' := run calls initial in
   _REGISTERED_NAMES r' = registered calls initial ∧
   dom (_CLASS_REGISTRY r') = list_to_set (registered calls initial) ∧
   NoDup (_REGISTERED_NAMES r') ∧
   I1 r') ∧
  (I1 r → I1 (run calls r) ∧ ∀ call : Call, I1 (after call r)).
Proof.
  split.
  - intros r'.
    destruct (I1_run calls initial I1_initial) as [Hnd Hdom].
    fold r' in Hnd, Hdom.
    assert (_REGISTERED_NAMES r' = registered calls initial) as Hn.
    { unfold r'. by rewrite run_names. }
    repeat split; try done. by rewrite Hdom, Hn.
  - intros HI. split; [by apply I1_run|]. intros call. by apply I1_after.
Qed.

Lemma registration_order_invariant_witness :
  let calls := [CallRegister "Example" None PredNone (VClass Example.A);
                CallRegister "Example" (Some "A") PredNone (VClass Example.B);
                CallGetName Example.a;
                CallRegister "Example" None (PredNotCallable true) (VClass Example.C);
                CallRegister "Example" None Example.is_instance_of_A (VClass Example.B);
                CallGetClass "Example.C"] in
  _REGISTERED_NAMES (run calls initial) = ["Example.A"; "Example.B"] ∧
  I1 (run calls (run calls initial)).
Proof.
  intros calls.
  destruct (registration_order_invariant calls (run calls initial))
    as [(Hn & _ & _ & HI) Hkeep].
  split; [exact Hn|]. apply Hkeep, HI.
Defined.

(** C10.  The loop of [get_registered_name] chooses the way an entry is
    matched by the truth value of the stored predicate.  For the entry
    registered last: when its predicate is falsy ([None], or a callable
    object whose truth value is false) the entry matches exactly when
    [type(obj)] is the registered class, and the predicate is not called;
    when its predicate is truthy and returns [v] on the object, the entry
    matches exactly when [v] is truthy, whatever kind of value [v] is.
    When the entry does not match, the loop goes on with the names
    registered before it. *)
Theorem truthiness_dispatch r names n p cls obj :
  _REGISTERED_NAMES r = (names ++ [n])%list →
  _CLASS_REGISTRY r !! n = Some (p, cls) →
  (pred_truthy p = false →
     get_registered_name obj r =
       if bool_decide (VClass (type_of obj) = cls)
       then (Return (Some n), r)
       else for_name_in obj (reverse names) r) ∧
  (pred_truthy p = true → ∀ v, py_call p obj = Return v →
     get_registered_name obj r =
       if truthy v
       then (Return (Some n), r)
       else for_name_in obj (reverse names) r).
Proof.
  intros Hn E.
  rewrite (get_registered_name_last obj r names n (p, cls) Hn E).
  unfold entry_matches; simpl. split.
  - intros ->. by destruct (bool_decide (VClass (type_of obj) = cls)).
  - intros -> v ->. by destruct (truthy v).
Qed.

Lemma truthiness_dispatch_witness :
  let r1 := run [CallRegister "Example" None Example.empty_callable (VClass Example.C)]
                initial in
  let r2 := run [CallRegister "Example" None Example.count_A (VClass Example.C)]
                initial in
  get_registered_name Example.a r1 = (Return None, r1) ∧
  get_registered_name Example.c r1 = (Return (Some "Example.C"), r1) ∧
  get_registered_name Example.a r2 = (Return (Some "Example.C"), r2) ∧
  get_registered_name Example.c r2 = (Return None, r2).
Proof.
  intros r1 r2.
  assert (_REGISTERED_NAMES r1 = ([] ++ ["Example.C"])%list) as N1 by reflexivity.
  assert (_CLASS_REGISTRY r1 !! "Example.C"
            = Some (Example.empty_callable, VClass Example.C)) as E1 by reflexivity.
  assert (_REGISTERED_NAMES r2 = ([] ++ ["Example.C"])%list) as N2 by reflexivity.
  assert (_CLASS_REGISTRY r2 !! "Example.C"
            = Some (Example.count_A, VClass Example.C)) as E2 by reflexivity.
  split; [|split; [|split]].
  - destruct (truthiness_dispatch r1 [] "Example.C" _ _ Example.a N1 E1) as [H _].
    rewrite (H eq_refl). reflexivity.
  - destruct (truthiness_dispatch r1 [] "Example.C" _ _ Example.c N1 E1) as [H _].
    rewrite (H eq_refl). reflexivity.
  - destruct (truthiness_dispatch r2 [] "Example.C" _ _ Example.a N2 E2) as [_ H].
    rewrite (H eq_refl (VInt 1) eq_refl). reflexivity.
  - destruct (truthiness_dispatch r2 [] "Example.C" _ _ Example.c N2 E2) as [_ H].
    rewrite (H eq_refl (VInt 0) eq_refl). reflexivity.
Defined.

(** C2.  With a single entry, registered for the class [A] without a
    predicate, [get_registered_name] returns the registered name for an
    object whose exact runtime type is [A] and [None] for every other
    object; in particular it returns [None] for an instance of a strict
    subclass of [A]. *)
Theorem exact_type_default_match package name A obj :
  let n := registered_name package name A in
  let r := after (CallRegister package name PredNone (VClass A)) initial in
  _REGISTERED_NAMES r = [n] ∧
  _CLASS_REGISTRY r !! n = Some (PredNone, VClass A) ∧
  (entry_matches (PredNone, VClass A) obj = Return true ↔ type_of obj = A) ∧
  (type_of obj = A → get_registered_name obj r = (Return (Some n), r)) ∧
  (type_of obj ≠ A → get_registered_name obj r = (Return None, r)) ∧
  (strict_subclass (type_of obj) A →
     get_registered_name obj r = (Return None, r)).
Proof.
  intros n r.
  assert (r = MkRegistry {[n := (PredNone, VClass A)]} [n]) as Hr.
  { unfold r, after. rewrite register_unfold. simpl.
    rewrite lookup_empty. simpl. by rewrite insert_empty. }
  assert (_REGISTERED_NAMES r = ([] ++ [n])%list) as Hn by by rewrite Hr.
  assert (_CLASS_REGISTRY r !! n = Some (PredNone, VClass A)) as E.
  { rewrite Hr. simpl. apply lookup_singleton_eq. }
  assert (get_registered_name obj r =
            if bool_decide (VClass (type_of obj) = VClass A)
            then (Return (Some n), r) else (Return None, r)) as Hget.
  { rewrite (get_registered_name_last obj r [] n _ Hn E).
    unfold entry_matches; simpl. by case_bool_decide. }
  split; [by rewrite Hr|]. split; [done|]. split; [|split; [|split]].
  - unfold entry_matches; simpl. split.
    + intros [= H%bool_decide_eq_true]. congruence.
    + intros Ht. by rewrite bool_decide_eq_true_2 by by rewrite Ht.
  - intros Ht. rewrite Hget. by rewrite bool_decide_eq_true_2 by by rewrite Ht.
  - intros Hne. rewrite Hget. rewrite bool_decide_eq_false_2; [done|]. congruence.
  - intros [_ Hne]. rewrite Hget. rewrite bool_decide_eq_false_2; [done|]. congruence.
Qed.

Lemma exact_type_default_match_witness :
  let r := after (CallRegister "Pkg" None PredNone (VClass Example.A)) initial in
  get_registered_name Example.a r = (Return (Some "Pkg.A"), r) ∧
  get_registered_name Example.b r = (Return None, r).
Proof.
  intros r. split.
  - destruct (exact_type_default_match "Pkg" None Example.A Example.a)
      as (_ & _ & _ & H & _). apply H. reflexivity.
  - destruct (exact_type_default_match "Pkg" None Example.A Example.b)
      as (_ & _ & _ & _ & _ & H). apply H.
    split; [vm_compute; reflexivity|discriminate].
Defined.




(** C5.  A name [n] registered with the class [T] resolves to [T] from
    then on, whatever calls follow.  If moreover the registration had no
    predicate, then for an object whose exact type is [T], as long as
    the match rule of every entry registered after [n] evaluates to no
    match on the object, [get_registered_name] returns [n]. *)
Theorem round_trip r0 package name p T r1 calls obj :
  register package name p (VClass T) r0 = (Return (VClass T), r1) →
  let n := registered_name package name T in
  let r2 := run calls r1 in
  get_registered_class n r1 = (Return (Some (VClass T)), r1) ∧
  get_registered_class n r2 = (Return (Some (VClass T)), r2) ∧
  (p = PredNone →
   type_of obj = T →
   (∀ m entry,
      m ∈ names_after n (_REGISTERED_NAMES r2) →
      _CLASS_REGISTRY r2 !! m = Some entry →
      entry_matches entry obj = Return false) →
   get_registered_name obj r2 = (Return (Some n), r2)).
Proof.
  intros H n r2.
  destruct (register_then_run _ _ _ _ _ _ _ calls H)
    as (? & [= <-] & _ & E1 & E2 & _ & Hn2).
  fold n in E1, E2, Hn2. fold r2 in E2, Hn2.
  split; [|split].
  - by rewrite get_registered_class_unfold, E1.
  - by rewrite get_registered_class_unfold, E2.
  - intros -> Ht Hlater.
    rewrite get_registered_name_unfold, Hn2, reverse_app, reverse_cons.
    rewrite <- app_assoc. simpl.
    apply for_name_in_first with (entry := (PredNone, VClass T)); [|done|].
    + intros m Hin. rewrite elem_of_reverse in Hin.
      assert (m ∈ dom (_CLASS_REGISTRY r2)) as [e He]%elem_of_dom.
      { unfold r2. rewrite run_dom. set_solver. }
      exists e. split; [done|].
      apply (Hlater m e); [|done]. rewrite Hn2. by apply names_after_incl.
    + unfold entry_matches; simpl. by rewrite Ht, bool_decide_eq_true_2.
Qed.

Lemma round_trip_witness :
  let r1 := run [CallRegister "Example" None PredNone (VClass Example.A)] initial in
  let r2 := run [CallRegister "Example" None PredNone (VClass Example.C);
                 CallGetName Example.c] r1 in
  get_registered_class "Example.A" r2 = (Return (Some (VClass Example.A)), r2) ∧
  get_registered_name Example.a r2 = (Return (Some "Example.A"), r2).
Proof.
  intros r1 r2.
  destruct (round_trip initial "Example" None PredNone Example.A r1
              [CallRegister "Example" None PredNone (VClass Example.C);
               CallGetName Example.c] Example.a eq_refl) as (_ & Hcls & Hname).
  split; [exact Hcls|].
  apply Hname; [reflexivity|reflexivity|].
  intros m entry Hin Hm.
  apply list_elem_of_singleton in Hin. subst m.
  vm_compute in Hm. injection Hm as <-. reflexivity.
Defined.

(** C6, as stated, fails: after a registration whose predicate raises,
    [get_registered_name] calls that predicate and the exception leaves
    the function.  So it is not the case that [get_registered_name]
    returns on every object in every state reached by calls of the
    module. *)
Lemma get_registered_name_raises :
  let r := run [CallRegister "Example" None Example.failing (VClass Example.A)]
               initial in
  get_registered_name Example.a r = (Raise (Exception "predicate failed"), r) ∧
  ¬ (∀ calls obj, ∃ found,
       (get_registered_name obj (run calls initial)).1 = Return found).
Proof.
  intros r. split; [reflexivity|].
  intros Hall.
  destruct (Hall [CallRegister "Example" None Example.failing (VClass Example.A)]
              Example.a) as [found Hfound].
  vm_compute in Hfound. discriminate.
Qed.

(** C6, amended.  [get_registered_class] never raises: it returns the
    registered class, or [None] when the name is not a key.  In a state
    that satisfies I1, [get_registered_name] returns [None] when the
    match rule of every registered entry evaluates to no match on the
    object; and an exception raised by a stored predicate that it calls
    on the object (the truthy predicate of an entry such that every entry
    registered after it evaluates to no match) is not caught: it leaves
    [get_registered_name]. *)
Theorem resolve_absence_is_not_failure r obj registered_name :
  I1 r →
  get_registered_class registered_name r =
    (Return (snd <$> _CLASS_REGISTRY r !! registered_name), r) ∧
  (_CLASS_REGISTRY r !! registered_name = None →
     get_registered_class registered_name r = (Return None, r)) ∧
  ((∀ n entry, n ∈ _REGISTERED_NAMES r → _CLASS_REGISTRY r !! n = Some entry →
      entry_matches entry obj = Return false) →
     get_registered_name obj r = (Return None, r)) ∧
  (∀ n p cls e,
     n ∈ _REGISTERED_NAMES r →
     _CLASS_REGISTRY r !! n = Some (p, cls) →
     pred_truthy p = true →
     py_call p obj = Raise e →
     (∀ m, m ∈ names_after n (_REGISTERED_NAMES r) →
        ∃ e', _CLASS_REGISTRY r !! m = Some e' ∧
          entry_matches e' obj = Return false) →
     get_registered_name obj r = (Raise e, r)).
Proof.
  intros HI.
  split; [apply get_registered_class_unfold|].
  split; [intros E; by rewrite get_registered_class_unfold, E|].
  split.
  - intros Hno. rewrite get_registered_name_unfold.
    apply for_name_in_none. intros m Hin. rewrite elem_of_reverse in Hin.
    destruct (I1_lookup r m HI Hin) as [e He].
    exists e. split; [done|]. by apply (Hno m).
  - intros n p cls e Hin E Hp Hc Hlater.
    rewrite get_registered_name_unfold.
    apply list_elem_of_split_l in Hin as (l1 & l2 & Hsplit & Hnot).
    rewrite Hsplit in Hlater |- *. rewrite names_after_app in Hlater by done.
    rewrite reverse_app, reverse_cons, <- app_assoc. simpl.
    apply for_name_in_first_raise with (entry := (p, cls)); [|done|].
    + intros m Hm. apply Hlater. by rewrite <- elem_of_reverse.
    + unfold entry_matches; simpl. by rewrite Hp, Hc.
Qed.

Lemma resolve_absence_is_not_failure_witness :
  let r := run [CallRegister "Example" None PredNone (VClass Example.A);
                CallRegister "Example" None Example.is_instance_of_A
                  (VClass Example.B)] initial in
  let r' := run [CallRegister "Example" None PredNone (VClass Example.C);
                 CallRegister "Example" None Example.failing (VClass Example.A);
                 CallRegister "Example" None PredNone (VClass Example.B)] initial in
  get_registered_class "Example.C" r = (Return None, r) ∧
  get_registered_name Example.c r = (Return None, r) ∧
  get_registered_name Example.c r' = (Raise (Exception "predicate failed"), r').
Proof.
  intros r r'.
  destruct (resolve_absence_is_not_failure r Example.c "Example.C"
              (I1_run _ _ I1_initial)) as (_ & Hcls & Hname & _).
  destruct (resolve_absence_is_not_failure r' Example.c "Example.C"
              (I1_run _ _ I1_initial)) as (_ & _ & _ & Hraise).
  split; [apply Hcls; reflexivity|]. split.
  - apply Hname. intros n entry Hin Hn.
    apply elem_of_cons in Hin as [->|Hin].
    { vm_compute in Hn. injection Hn as <-. reflexivity. }
    apply list_elem_of_singleton in Hin. subst n.
    vm_compute in Hn. injection Hn as <-. reflexivity.
  - apply (Hraise "Example.A" Example.failing (VClass Example.A));
      [right; left|reflexivity|reflexivity|reflexivity|].
    intros m Hin. apply list_elem_of_singleton in Hin. subst m.
    eexists. split; reflexivity.
Defined.

End Properties.

(** ** What a result of the loop tells *)

Section Inversion.

Implicit Types (r : Registry) (obj : PyVal) (p : Predicate) (c : PyClass).

(** The entries a list of names evaluates to no match on the object. *)
Local Abbreviation no_match r obj names :=
  (∀ m, m ∈ names →
     ∃ e, _CLASS_REGISTRY r !! m = Some e ∧ entry_matches e obj = Return false).

(** A name that the loop returns is the first one whose entry matches. *)
Lemma for_name_in_some_inv obj r names n r' :
  for_name_in obj names r = (Return (Some n), r') →
  ∃ before rest entry,
    names = (before ++ n :: rest)%list ∧
    _CLASS_REGISTRY r !! n = Some entry ∧
    entry_matches entry obj = Return true ∧
    no_match r obj before.
Proof.
  induction names as [|m names IH]; [done|].
  destruct (_CLASS_REGISTRY r !! m) as [entry|] eqn:E.
  - rewrite (for_name_in_cons _ _ _ _ _ E).
    destruct (entry_matches entry obj) as [[]|] eqn:Hm; [| |done].
    + intros H. simplify_eq. exists [], names, entry.
      repeat split; try done. by intros ? ?%elem_of_nil.
    + intros (before & rest & en & -> & En & Hn & Hb)%IH.
      exists (m :: before), rest, en. repeat split; try done.
      intros m' [->|Hin]%elem_of_cons; [by exists entry|by apply Hb].
  - by rewrite for_name_in_missing.
Qed.

(** When the loop ends without a name, every entry was evaluated and none
    matched. *)
Lemma for_name_in_none_inv obj r names r' :
  for_name_in obj names r = (Return None, r') → no_match r obj names.
Proof.
  induction names as [|m names IH]; [by intros _ ? ?%elem_of_nil|].
  destruct (_CLASS_REGISTRY r !! m) as [entry|] eqn:E.
  - rewrite (for_name_in_cons _ _ _ _ _ E).
    destruct (entry_matches entry obj) as [[]|] eqn:Hm; [done| |done].
    intros H. pose proof (IH H) as Hrest.
    intros m' [->|Hin]%elem_of_cons; [by exists entry|by apply Hrest].
  - by rewrite for_name_in_missing.
Qed.

Lemma NoDup_split_notin (before rest : list string) n :
  NoDup (before ++ n :: rest)%list → n ∉ before.
Proof.
  intros [_ [Hd _]]%NoDup_app Hin. apply (Hd n Hin). left.
Qed.

(** The registration order, read from the end, around one of its names. *)
Lemma reverse_names_split (names before rest : list string) n :
  reverse names = (before ++ n :: rest)%list →
  names = (reverse rest ++ n :: reverse before)%list.
Proof.
  intros H. rewrite <- (reverse_involutive names), H.
  rewrite reverse_app, reverse_cons, <- app_assoc. done.
Qed.

End Inversion.

(** ** Further properties of the lookups *)

Section Lookups.

Implicit Types (r : Registry) (obj : PyVal) (p : Predicate) (c : PyClass).

(** [get_registered_name] returns the name registered last among those
    whose entry matches: it returns [n] exactly when [n] is registered,
    its entry matches the object, and every entry registered after [n]
    evaluates to no match.  What the entries registered before [n] would
    do with the object, raising included, plays no part. *)
Theorem get_registered_name_first_match r obj n :
  I1 r →
  get_registered_name obj r = (Return (Some n), r) ↔
  n ∈ _REGISTERED_NAMES r ∧
  (∃ entry, _CLASS_REGISTRY r !! n = Some entry ∧
     entry_matches entry obj = Return true) ∧
  (∀ m, m ∈ names_after n (_REGISTERED_NAMES r) →
     ∃ e, _CLASS_REGISTRY r !! m = Some e ∧ entry_matches e obj = Return false).
Proof.
  intros [Hnd _]. rewrite get_registered_name_unfold. split.
  - intros (before & rest & entry & Hsplit%reverse_names_split & E & Hm & Hb)
      %for_name_in_some_inv.
    rewrite Hsplit in Hnd |- *. split; [|split].
    + apply elem_of_app. right. left.
    + by exists entry.
    + rewrite names_after_app by by eapply NoDup_split_notin.
      intros m Hin. apply Hb. by rewrite <- elem_of_reverse.
  - intros (Hin & (entry & E & Hm) & Hlater).
    apply list_elem_of_split_l in Hin as (l1 & l2 & Hsplit & Hnot).
    rewrite Hsplit in Hlater |- *. rewrite names_after_app in Hlater by done.
    rewrite reverse_app, reverse_cons, <- app_assoc. simpl.
    apply for_name_in_first with (entry := entry); [|done|done].
    intros m Hm'. apply Hlater. by rewrite <- elem_of_reverse.
Qed.

Lemma get_registered_name_first_match_witness :
  let r := run [CallRegister "Example" None Example.failing (VClass Example.C);
                CallRegister "Example" None Example.is_instance_of_A (VClass Example.A);
                CallRegister "Example" None PredNone (VClass Example.B)] initial in
  get_registered_name Example.a r = (Return (Some "Example.A"), r).
Proof.
  intros r.
  apply (get_registered_name_first_match r Example.a "Example.A"
           (I1_run _ _ I1_initial)).
  split; [|split].
  - right. left.
  - eexists. split; reflexivity.
  - intros m Hin. apply list_elem_of_singleton in Hin. subst m.
    eexists. split; reflexivity.
Defined.

(** [get_registered_name] returns [None] exactly when every entry of the
    registry evaluates to no match on the object; in particular no stored
    predicate raised. *)
Theorem get_registered_name_none_iff r obj :
  I1 r →
  get_registered_name obj r = (Return None, r) ↔
  ∀ n entry, _CLASS_REGISTRY r !! n = Some entry →
    entry_matches entry obj = Return false.
Proof.
  intros HI. rewrite get_registered_name_unfold. split.
  - intros H. pose proof (for_name_in_none_inv _ _ _ _ H) as Hno.
    intros n entry E.
    assert (n ∈ _REGISTERED_NAMES r) as Hin.
    { destruct HI as [_ Hdom].
      assert (n ∈ dom (_CLASS_REGISTRY r)) as Hd by (apply elem_of_dom; eauto).
      rewrite Hdom in Hd. set_solver. }
    destruct (Hno n) as (e & E' & Hm); [by apply elem_of_reverse|]. congruence.
  - intros Hno. apply for_name_in_none. intros m Hin.
    rewrite elem_of_reverse in Hin.
    destruct (I1_lookup r m HI Hin) as [e He]. exists e. split; [done|].
    by apply (Hno m).
Qed.

Lemma get_registered_name_none_iff_witness :
  let r := run [CallRegister "Example" None PredNone (VClass Example.A)] initial in
  get_registered_name Example.b r = (Return None, r).
Proof.
  intros r.
  apply (get_registered_name_none_iff r Example.b (I1_run _ _ I1_initial)).
  intros n entry Hn.
  assert (n ∈ dom (_CLASS_REGISTRY r)) as Hd by (apply elem_of_dom; eauto).
  destruct (I1_run [CallRegister "Example" None PredNone (VClass Example.A)]
              initial I1_initial) as [_ Hdom].
  fold r in Hdom. rewrite Hdom in Hd.
  apply elem_of_list_to_set, list_elem_of_singleton in Hd. subst n.
  vm_compute in Hn. injection Hn as <-. reflexivity.
Defined.

End Lookups.

Section SaveLoad.

Implicit Types (r : Registry) (obj : PyVal) (p : Predicate) (c : PyClass).

(** A name returned by [get_registered_name] is a key of the registry, so
    [get_registered_class] returns a class for it.  When the entry has a
    falsy predicate that class is [type(obj)]; when it has a truthy one,
    the predicate returned a truthy value on the object and the class is
    whatever class was registered with it. *)
Theorem resolved_name_resolves_to_class obj r n r' :
  get_registered_name obj r = (Return (Some n), r') →
  ∃ p cls,
    _CLASS_REGISTRY r !! n = Some (p, cls) ∧
    get_registered_class n r = (Return (Some cls), r) ∧
    (pred_truthy p = false → cls = VClass (type_of obj)) ∧
    (pred_truthy p = true → ∃ v, py_call p obj = Return v ∧ truthy v = true).
Proof.
  rewrite get_registered_name_unfold.
  intros (_ & _ & [p cls] & _ & E & Hm & _)%for_name_in_some_inv.
  exists p, cls. split; [done|]. split.
  { by rewrite get_registered_class_unfold, E. }
  unfold entry_matches in Hm; simpl in Hm. split; intros Hp; rewrite Hp in Hm.
  - injection Hm as Hm%bool_decide_eq_true. done.
  - destruct (py_call p obj) as [v|]; [|done]. exists v. split; [done|].
    by injection Hm.
Qed.

Lemma resolved_name_resolves_to_class_witness :
  let r := run [CallRegister "Example" None PredNone (VClass Example.A);
                CallRegister "Example" None Example.is_instance_of_A
                  (VClass Example.B)] initial in
  ∃ p cls,
    _CLASS_REGISTRY r !! "Example.B" = Some (p, cls) ∧
    get_registered_class "Example.B" r = (Return (Some cls), r) ∧
    (pred_truthy p = false → cls = VClass (type_of Example.a)) ∧
    (pred_truthy p = true →
       ∃ v, py_call p Example.a = Return v ∧ truthy v = true).
Proof.
  intros r.
  apply (resolved_name_resolves_to_class Example.a r "Example.B" r).
  reflexivity.
Defined.

(** When no entry has a truthy predicate, the name depends on the type of
    the object alone: two objects of the same exact type get the same
    answer. *)
Theorem same_type_same_name r obj1 obj2 :
  (∀ n p cls, _CLASS_REGISTRY r !! n = Some (p, cls) → pred_truthy p = false) →
  type_of obj1 = type_of obj2 →
  get_registered_name obj1 r = get_registered_name obj2 r.
Proof.
  intros Hfalsy Ht. rewrite !get_registered_name_unfold.
  induction (reverse (_REGISTERED_NAMES r)) as [|m names IH]; [done|].
  destruct (_CLASS_REGISTRY r !! m) as [[p cls]|] eqn:E.
  - rewrite !(for_name_in_cons _ _ _ _ _ E).
    unfold entry_matches; simpl. rewrite (Hfalsy m p cls E), Ht.
    by destruct (bool_decide (VClass (type_of obj2) = cls)).
  - by rewrite !for_name_in_missing.
Qed.

Lemma same_type_same_name_witness :
  let r := run [CallRegister "Example" None PredNone (VClass Example.A);
                CallRegister "Example" None Example.empty_callable
                  (VClass Example.B)] initial in
  get_registered_name (VInstance Example.A 1) r =
    get_registered_name (VInstance Example.A 2) r.
Proof.
  intros r.
  apply (same_type_same_name r (VInstance Example.A 1) (VInstance Example.A 2));
    [|reflexivity].
  intros n p cls Hn.
  assert (n ∈ dom (_CLASS_REGISTRY r)) as Hd by (apply elem_of_dom; eauto).
  destruct (I1_run [CallRegister "Example" None PredNone (VClass Example.A);
                    CallRegister "Example" None Example.empty_callable
                      (VClass Example.B)] initial I1_initial) as [_ Hdom].
  fold r in Hdom. rewrite Hdom in Hd.
  apply elem_of_list_to_set in Hd.
  apply elem_of_cons in Hd as [->|Hd].
  { vm_compute in Hn. by injection Hn as <- <-. }
  apply list_elem_of_singleton in Hd. subst n.
  vm_compute in Hn. by injection Hn as <- <-.
Defined.

End SaveLoad.

(** ** Further properties of registration *)

Section Registration.

Implicit Types (r : Registry) (obj : PyVal) (p : Predicate) (c : PyClass).

(** The decorator alone: it does not look at the predicate. *)
Lemma decorator_unfold package name p arg r :
  decorator package name p arg r =
    match arg with
    | VClass c =>
        let n := registered_name package name c in
        match _CLASS_REGISTRY r !! n with
        | Some existing =>
            (Raise (ValueError "{} has already been registered to {}"
                      [FStr n; FEntry existing.1 existing.2]), r)
        | None =>
            (Return arg,
             MkRegistry (<[n := (p, arg)]> (_CLASS_REGISTRY r))
                        (_REGISTERED_NAMES r ++ [n]))
        end
    | _ => (Raise (ValueError "Registered serializable must be a class: {}"
                     [FVal arg]), r)
    end.
Proof.
  destruct arg; try done.
  unfold decorator, registered_name; simpl.
  destruct name as [n|]; simpl;
    unfold mbind, M_bind, mret, M_ret, registry_contains, registry_getitem; simpl.
  - destruct (_CLASS_REGISTRY r !! (package ++ "." ++ n)) as [e|] eqn:E; simpl;
      [by rewrite E|done].
  - destruct (_CLASS_REGISTRY r !! (package ++ "." ++ cls_name c)) as [e|] eqn:E;
      simpl; [by rewrite E|done].
Qed.

Lemma string_app_assoc (s1 s2 s3 : string) :
  (s1 ++ s2) ++ s3 = s1 ++ s2 ++ s3.
Proof.
  induction s1 as [|a s1 IH]; [reflexivity|].
  change (String a ((s1 ++ s2) ++ s3) = String a (s1 ++ s2 ++ s3)).
  by rewrite IH.
Qed.

(** A registration returns exactly when the predicate is [None] or
    callable, the candidate is a class, and the name built from the
    package and the class name is not yet a key; what it returns is the
    class it was given.  Nothing is asked of the two strings: an empty
    package or an empty name is accepted. *)
Theorem register_returns_iff package name p arg r v :
  (∃ r', register package name p arg r = (Return v, r')) ↔
  ∃ c, arg = VClass c ∧ v = arg ∧
    (is_none p = true ∨ callable p = true) ∧
    _CLASS_REGISTRY r !!
      (package ++ "." ++ match name with Some n => n | None => cls_name c end)
      = None.
Proof.
  split.
  - intros [r' (c & -> & -> & Hp & Hfresh & _)%register_returns].
    exists c. split; [done|]. split; [done|].
    split; [by apply orb_true_iff|].
    unfold registered_name in Hfresh. by destruct name.
  - intros (c & -> & -> & Hp & Hfresh).
    rewrite register_unfold.
    assert (negb (is_none p) && negb (callable p) = false) as ->.
    { destruct Hp as [-> | ->]; [done|]. apply andb_false_r. }
    simpl. unfold registered_name. destruct name; simpl in *; rewrite Hfresh; eauto.
Qed.

(** A decorator made with an explicit [name] registers one class only:
    once it has registered a class, applying it, or any decorator made
    for the same package and name, to any class raises the
    duplicate-registration error that names the first entry, whatever
    calls were made in between. *)
Theorem named_decorator_registers_once package n p c1 r v r1 calls p' c2 :
  decorator package (Some n) p (VClass c1) r = (Return v, r1) →
  decorator package (Some n) p' (VClass c2) (run calls r1) =
    (Raise (ValueError "{} has already been registered to {}"
              [FStr (package ++ "." ++ n); FEntry p (VClass c1)]),
     run calls r1).
Proof.
  rewrite decorator_unfold. simpl.
  destruct (_CLASS_REGISTRY r !! registered_name package (Some n) c1) eqn:E;
    [done|].
  intros [= <- <-]. rewrite decorator_unfold. simpl.
  change (registered_name package (Some n) c2)
    with (registered_name package (Some n) c1).
  rewrite (run_lookup_mono calls _ _ (p, VClass c1)); [done|].
  simpl. apply lookup_insert_eq.
Qed.

Lemma named_decorator_registers_once_witness :
  let r1 := (decorator "Example" (Some "Thing") PredNone (VClass Example.A) initial).2 in
  decorator "Example" (Some "Thing") Example.is_instance_of_A (VClass Example.B)
    (run [CallGetName Example.a] r1) =
    (Raise (ValueError "{} has already been registered to {}"
              [FStr "Example.Thing"; FEntry PredNone (VClass Example.A)]),
     run [CallGetName Example.a] r1).
Proof.
  intros r1.
  apply (named_decorator_registers_once "Example" "Thing" PredNone Example.A
           initial (VClass Example.A) r1 [CallGetName Example.a]).
  reflexivity.
Defined.

(** A decorator made without a [name] takes the name from each class: it
    registers two classes whose [__name__]s differ, one after the other,
    when neither name is a key yet. *)
Theorem unnamed_decorator_registers_many package p c1 c2 r :
  cls_name c1 ≠ cls_name c2 →
  _CLASS_REGISTRY r !! (package ++ "." ++ cls_name c1) = None →
  _CLASS_REGISTRY r !! (package ++ "." ++ cls_name c2) = None →
  ∃ r1 r2,
    decorator package None p (VClass c1) r = (Return (VClass c1), r1) ∧
    decorator package None p (VClass c2) r1 = (Return (VClass c2), r2) ∧
    _REGISTERED_NAMES r2 =
      (_REGISTERED_NAMES r ++
         [(package ++ "." ++ cls_name c1)%string;
          (package ++ "." ++ cls_name c2)%string])%list ∧
    _CLASS_REGISTRY r2 !! (package ++ "." ++ cls_name c1) = Some (p, VClass c1) ∧
    _CLASS_REGISTRY r2 !! (package ++ "." ++ cls_name c2) = Some (p, VClass c2).
Proof.
  intros Hne H1 H2.
  assert (package ++ "." ++ cls_name c1 ≠ package ++ "." ++ cls_name c2) as Hk.
  { intros Heq. apply Hne.
    apply (inj (String.append ".")), (inj (String.append package)), Heq. }
  eexists _, _. rewrite !decorator_unfold. simpl.
  unfold registered_name; simpl. rewrite H1. split; [done|]. simpl.
  rewrite lookup_insert_ne, H2 by done. split; [done|]. simpl.
  split; [by rewrite <- app_assoc|].
  split; [|apply lookup_insert_eq].
  rewrite lookup_insert_ne by done. apply lookup_insert_eq.
Qed.

Lemma unnamed_decorator_registers_many_witness :
  ∃ r1 r2,
    decorator "Example" None PredNone (VClass Example.A) initial
      = (Return (VClass Example.A), r1) ∧
    decorator "Example" None PredNone (VClass Example.B) r1
      = (Return (VClass Example.B), r2) ∧
    _REGISTERED_NAMES r2 =
      (_REGISTERED_NAMES initial ++
         [("Example" ++ "." ++ "A")%string; ("Example" ++ "." ++ "B")%string])%list ∧
    _CLASS_REGISTRY r2 !! ("Example" ++ "." ++ "A") = Some (PredNone, VClass Example.A) ∧
    _CLASS_REGISTRY r2 !! ("Example" ++ "." ++ "B") = Some (PredNone, VClass Example.B).
Proof.
  apply (unnamed_decorator_registers_many "Example" PredNone Example.A Example.B
           initial); [discriminate|reflexivity|reflexivity].
Defined.

End Registration.

(** ** Sequences of calls, further *)

Section Histories.

Implicit Types (r : Registry) (obj : PyVal) (p : Predicate) (c : PyClass).

(** Repeating a call changes nothing more: the globals after making the
    same call twice are the globals after making it once.  A registration
    that returned raises the second time and leaves its first entry. *)
Theorem call_idempotent (call : Call) r :
  after call (after call r) = after call r.
Proof.
  destruct call as [package name p arg|obj|n].
  - unfold after. rewrite (register_unfold package name p arg r).
    destruct (negb (is_none p) && negb (callable p)) eqn:Hp.
    { simpl. by rewrite register_unfold, Hp. }
    destruct arg; simpl; try (by rewrite register_unfold, Hp).
    destruct (_CLASS_REGISTRY r !! registered_name package name c) eqn:E; simpl.
    + rewrite register_unfold, Hp. cbv zeta. by rewrite E.
    + rewrite register_unfold, Hp. cbv zeta. simpl. by rewrite lookup_insert_eq.
  - by rewrite !after_get_name.
  - by rewrite !after_get_class.
Qed.

(** Entries are for ever: a class that [get_registered_class] returns for
    a name is returned for that name after any further calls, and the
    registration order only grows at its end. *)
Theorem registered_class_is_stable r n cls calls :
  get_registered_class n r = (Return (Some cls), r) →
  get_registered_class n (run calls r) = (Return (Some cls), run calls r) ∧
  _REGISTERED_NAMES r `prefix_of` _REGISTERED_NAMES (run calls r).
Proof.
  rewrite !get_registered_class_unfold. intros H.
  destruct (_CLASS_REGISTRY r !! n) as [[p cls']|] eqn:E; simplify_eq/=.
  split.
  - by rewrite (run_lookup_mono calls r n (p, cls) E).
  - rewrite run_names. by apply prefix_app_r.
Qed.

Lemma registered_class_is_stable_witness :
  let r := run [CallRegister "Example" None PredNone (VClass Example.A)] initial in
  let calls := [CallRegister "Example" (Some "A") PredNone (VClass Example.B);
                CallRegister "Example" None Example.is_instance_of_A (VClass Example.B)] in
  get_registered_class "Example.A" (run calls r) =
    (Return (Some (VClass Example.A)), run calls r) ∧
  _REGISTERED_NAMES r `prefix_of` _REGISTERED_NAMES (run calls r).
Proof.
  intros r calls.
  apply (registered_class_is_stable r "Example.A" (VClass Example.A) calls).
  reflexivity.
Defined.

(** Every entry that calls of the module put into the registry holds a
    class, and a predicate that is [None] or callable. *)
Theorem entries_well_formed (calls : list Call) n p cls :
  _CLASS_REGISTRY (run calls initial) !! n = Some (p, cls) →
  isclass cls = true ∧ (is_none p = true ∨ callable p = true).
Proof.
  assert (∀ r, (∀ n p cls, _CLASS_REGISTRY r !! n = Some (p, cls) →
                  isclass cls = true ∧ (is_none p = true ∨ callable p = true)) →
               ∀ n p cls, _CLASS_REGISTRY (run calls r) !! n = Some (p, cls) →
                  isclass cls = true ∧ (is_none p = true ∨ callable p = true))
    as Hrun.
  { induction calls as [|call calls IH]; intros r Hr; [done|].
    rewrite run_cons. apply IH. clear IH.
    destruct call as [package name q arg|obj|m];
      [|by rewrite after_get_name|by rewrite after_get_class].
    unfold after. rewrite register_unfold.
    destruct (negb (is_none q) && negb (callable q)) eqn:Hq; [done|].
    destruct arg; try done. simpl.
    destruct (_CLASS_REGISTRY r !! registered_name package name c) eqn:E; [done|].
    simpl. intros n' p' cls' Hn'.
    apply lookup_insert_Some in Hn' as [[_ [= <- <-]]|[_ Hn']]; [|by eapply Hr].
    split; [done|]. destruct (is_none q), (callable q); auto; done. }
  apply Hrun. intros ? ? ?. simpl. by rewrite lookup_empty.
Qed.

Lemma entries_well_formed_witness :
  isclass (VClass Example.B) = true ∧
  (is_none Example.is_instance_of_A = true ∨
   callable Example.is_instance_of_A = true).
Proof.
  apply (entries_well_formed
           [CallRegister "Example" None (PredNotCallable true) (VClass Example.A);
            CallRegister "Example" None Example.is_instance_of_A (VClass Example.B)]
           "Example.B").
  reflexivity.
Defined.

(** A class may be registered again under a second name.  Both names
    then resolve to the class, and the name returned for its direct
    instances is the one registered last. *)
Theorem second_name_for_a_class
    r0 package1 name1 p1 c r1 calls package2 name2 r3 obj :
  register package1 name1 p1 (VClass c) r0 = (Return (VClass c), r1) →
  register package2 name2 PredNone (VClass c) (run calls r1)
    = (Return (VClass c), r3) →
  type_of obj = c →
  let N1 := registered_name package1 name1 c in
  let N2 := registered_name package2 name2 c in
  N1 ≠ N2 ∧
  get_registered_class N1 r3 = (Return (Some (VClass c)), r3) ∧
  get_registered_class N2 r3 = (Return (Some (VClass c)), r3) ∧
  get_registered_name obj r3 = (Return (Some N2), r3).
Proof.
  intros H1 H2 Ht N1 N2.
  destruct (register_then_run _ _ _ _ _ _ _ calls H1)
    as (? & [= <-] & _ & _ & E1 & _ & _).
  destruct (register_then_run _ _ _ _ _ _ _ [] H2)
    as (? & [= <-] & Hfresh & E3 & _ & Hn3 & _).
  fold N1 in E1. fold N2 in Hfresh, E3, Hn3.
  assert (N1 ≠ N2) as Hne by (intros Heq; rewrite Heq in E1; congruence).
  apply register_returns in H2 as (? & [= <-] & _ & _ & _ & Hr3).
  fold N2 in Hr3.
  split; [done|]. rewrite !get_registered_class_unfold, E3.
  split; [|split; [done|]].
  - rewrite Hr3. simpl. by rewrite lookup_insert_ne, E1.
  - rewrite (get_registered_name_last obj r3 _ N2 _ Hn3 E3).
    unfold entry_matches; simpl. by rewrite Ht, bool_decide_eq_true_2.
Qed.

Lemma second_name_for_a_class_witness :
  let r1 := run [CallRegister "Example" None PredNone (VClass Example.A)] initial in
  let r3 := run [CallRegister "Other" (Some "Alias") PredNone (VClass Example.A)] r1 in
  "Example.A" ≠ "Other.Alias" ∧
  get_registered_class "Example.A" r3 = (Return (Some (VClass Example.A)), r3) ∧
  get_registered_class "Other.Alias" r3 = (Return (Some (VClass Example.A)), r3) ∧
  get_registered_name Example.a r3 = (Return (Some "Other.Alias"), r3).
Proof.
  intros r1 r3.
  apply (second_name_for_a_class initial "Example" None PredNone Example.A r1 []
           "Other" (Some "Alias") r3 Example.a); reflexivity.
Defined.

(** The registered name does not record where the package ends: a
    package [pk ++ "." ++ q] with the name [n] and the package [pk] with
    the name [q ++ "." ++ n] give the same key, so after the one
    registration the other raises the duplicate-registration error. *)
Theorem package_boundary_collision pk q n p1 c1 r v r1 p2 c2 :
  register (pk ++ "." ++ q) (Some n) p1 (VClass c1) r = (Return v, r1) →
  is_none p2 || callable p2 = true →
  register pk (Some (q ++ "." ++ n)) p2 (VClass c2) r1 =
    (Raise (ValueError "{} has already been registered to {}"
              [FStr (pk ++ "." ++ q ++ "." ++ n); FEntry p1 (VClass c1)]), r1).
Proof.
  intros H1 Hp2.
  destruct (register_then_run _ _ _ _ _ _ _ [] H1)
    as (? & [= <-] & _ & E1 & _ & _ & _).
  unfold registered_name in E1; simpl in E1.
  rewrite string_app_assoc in E1.
  rewrite register_unfold.
  assert (negb (is_none p2) && negb (callable p2) = false) as ->.
  { destruct (is_none p2), (callable p2); done. }
  simpl. unfold registered_name; simpl.
  change (("." ++ q) ++ "." ++ n) with ("." ++ q ++ "." ++ n) in E1.
  by rewrite E1.
Qed.

Lemma package_boundary_collision_witness :
  let r1 := run [CallRegister ("a" ++ "." ++ "b") (Some "C") PredNone
                   (VClass Example.A)] initial in
  register "a" (Some ("b" ++ "." ++ "C")) PredNone (VClass Example.B) r1 =
    (Raise (ValueError "{} has already been registered to {}"
              [FStr ("a" ++ "." ++ "b" ++ "." ++ "C");
               FEntry PredNone (VClass Example.A)]), r1).
Proof.
  intros r1.
  apply (package_boundary_collision "a" "b" "C" PredNone Example.A initial
           (VClass Example.A) r1 PredNone Example.B); reflexivity.
Defined.

(** With the default arguments ([package="Custom"], [name=None],
    [predicate=None]) a class whose name is free is registered as
    ["Custom." + cls.__name__]: afterwards that name resolves to the
    class, and objects whose exact type is the class resolve to that
    name. *)
Theorem default_arguments c r obj :
  _CLASS_REGISTRY r !! ("Custom." ++ cls_name c) = None →
  type_of obj = c →
  ∃ r',
    register default_package default_name default_predicate (VClass c) r
      = (Return (VClass c), r') ∧
    _REGISTERED_NAMES r' =
      (_REGISTERED_NAMES r ++ [("Custom." ++ cls_name c)%string])%list ∧
    get_registered_class ("Custom." ++ cls_name c) r'
      = (Return (Some (VClass c)), r') ∧
    get_registered_name obj r' = (Return (Some ("Custom." ++ cls_name c)), r').
Proof.
  intros Hfresh Ht. eexists. rewrite register_unfold. simpl.
  change (registered_name default_package default_name c)
    with ("Custom." ++ cls_name c).
  rewrite Hfresh. split; [done|]. simpl. split; [done|].
  rewrite get_registered_class_unfold. simpl. rewrite lookup_insert_eq.
  split; [done|].
  erewrite get_registered_name_last;
    [|reflexivity|simpl; apply lookup_insert_eq].
  unfold entry_matches; simpl. by rewrite Ht, bool_decide_eq_true_2.
Qed.

Lemma default_arguments_witness :
  ∃ r',
    register default_package default_name default_predicate (VClass Example.A) initial
      = (Return (VClass Example.A), r') ∧
    _REGISTERED_NAMES r' =
      (_REGISTERED_NAMES initial ++ [("Custom." ++ cls_name Example.A)%string])%list ∧
    get_registered_class ("Custom." ++ cls_name Example.A) r'
      = (Return (Some (VClass Example.A)), r') ∧
    get_registered_name Example.a r'
      = (Return (Some ("Custom." ++ cls_name Example.A)), r').
Proof.
  apply (default_arguments Example.A initial Example.a); reflexivity.
Defined.

End Histories.
